(** * pyls.plugins.pylint_lint: the pylint linter plugin

    A shallow embedding of [src/pyls/plugins/pylint_lint.py] and the
    properties its specification states about [PylintLinter.lint].

    The plugin is one class method.  It reads and writes the class attribute
    [last_diags] (a [collections.defaultdict(list)]), runs pylint on the
    document's path and turns pylint's JSON report into LSP diagnostics.

    What is outside the repository is a parameter of the development:
    the platform name [sys.platform], the run of pylint itself
    ([pylint.lint.Run] writing through a [JSONReporter] into a [BytesIO]),
    [json.load], and Python's [str()] on values that are not strings.
    The calls of [log.debug] are left out. *)

From Stdlib Require Import ZArith String Ascii List Bool SpecFloat.
From stdpp Require Import base option list gmap strings.

Local Open Scope string_scope.
Local Open Scope list_scope.
Local Open Scope Z_scope.

(** ** Python values

    [json.load] returns ordinary Python objects: [None], [bool], [int],
    [float], [str], [list] and [dict] with [str] keys.  A [float] is an
    IEEE 754 binary64 number.  A [dict] is kept as the list of its items in
    insertion order; its keys are distinct. *)

#[warnings="-register-all"]
Inductive pyval : Type :=
  | PNone
  | PBool (b : bool)
  | PInt (z : Z)
  | PFloat (f : spec_float)
  | PStr (s : string)
  | PList (l : list pyval)
  | PDict (d : list (string * pyval)).

(** The exceptions the method can end with.  [ValueError] is what
    [json.load] raises on malformed input; [RunError] stands for whatever
    the run of pylint itself raises. *)

Inductive exn : Type :=
  | KeyError (key : string)
  | TypeError
  | IndexError
  | UnboundLocalError (name : string)
  | ValueError
  | RunError (msg : string).

(** ** Exceptions as results *)

Inductive result (A : Type) : Type :=
  | Ok (a : A)
  | Raise (e : exn).

Arguments Ok {A} a.
Arguments Raise {A} e.

#[global] Instance result_ret : MRet result := fun _ a => Ok a.
#[global] Instance result_fmap : FMap result := fun _ _ f m =>
  match m with
  | Ok a => Ok (f a)
  | Raise e => Raise e
  end.
#[global] Instance result_bind : MBind result := fun _ _ f m =>
  match m with
  | Ok a => f a
  | Raise e => Raise e
  end.

(** ** [lsp.DiagnosticSeverity] and the diagnostic dicts *)

Inductive DiagnosticSeverity : Type :=
  | Error
  | Warning
  | Information
  | Hint.

Record Position : Type := mkPosition {
  line : pyval;
  character : pyval
}.

Record Range : Type := mkRange {
  start : Position;
  end_ : Position
}.

Record Diagnostic : Type := mkDiagnostic {
  source : string;
  range : Range;
  message : string;
  severity : DiagnosticSeverity
}.

(** ** The document

    The code takes [len] of a line, which counts characters (code
    points), so a line is kept as the list of its code points.  The other
    strings are only compared, joined, or searched for the backslash, and
    are kept as their bytes (UTF-8), on which these operations agree with
    Python's. *)

Definition pystr : Type := list N.

Record Document : Type := mkDocument {
  path : string;
  lines : list pystr
}.

(** ** The world the method runs in

    Lists are objects: [heap] holds the diagnostic lists that exist, a
    location is an index into it, and [last_diags] maps a path to the
    location of its list.  [trace] records, in order, what was done to the
    outside: clearing astroid's cache and running pylint. *)

(** A location: the identity of a list object. *)
Definition loc : Type := nat.

Inductive event : Type :=
  | AstroidCacheClear
  | PylintRun (args : list string).

Record world : Type := mkWorld {
  heap : list (list Diagnostic);
  last_diags : gmap string loc;
  trace : list event
}.

(** A computation of the method: from a world to a value or an exception,
    and the world it leaves. *)
Definition Py (A : Type) : Type := world -> result A * world.

#[global] Instance Py_ret : MRet Py := fun _ a w => (Ok a, w).
#[global] Instance Py_bind : MBind Py := fun _ _ f m w =>
  match m w with
  | (Ok a, w') => f a w'
  | (Raise e, w') => (Raise e, w')
  end.

(** A computation that does not touch the world. *)
Definition lift {A : Type} (r : result A) : Py A := fun w => (r, w).

(** A new list object. *)
Definition new_list (ds : list Diagnostic) : Py loc := fun w =>
  (Ok (length (heap w)),
   {| heap := (heap w ++ [ds])%list; last_diags := last_diags w;
      trace := trace w |}).

(** [cls.last_diags[key] = value] *)
Definition last_diags_setitem (key : string) (value : loc) : Py unit := fun w =>
  (Ok tt,
   {| heap := heap w; last_diags := <[key := value]> (last_diags w);
      trace := trace w |}).

(** [cls.last_diags[key]] on a [defaultdict(list)]: a missing key is given
    a new empty list, which is stored under the key and returned. *)
Definition last_diags_getitem (key : string) : Py loc := fun w =>
  match last_diags w !! key with
  | Some l => (Ok l, w)
  | None => (l ← new_list []; last_diags_setitem key l;; mret l) w
  end.

(** Doing [e] to the outside. *)
Definition emit (e : event) : Py unit := fun w =>
  (Ok tt,
   {| heap := heap w; last_diags := last_diags w;
      trace := (trace w ++ [e])%list |}).

(** ** Python operations used by the loop *)

(** [d[key]] for a string [key]. *)
Fixpoint dict_lookup (key : string) (d : list (string * pyval))
  : option pyval :=
  match d with
  | [] => None
  | (k, v) :: d' => if String.eqb k key then Some v else dict_lookup key d'
  end.

Definition getitem (v : pyval) (key : string) : result pyval :=
  match v with
  | PDict d =>
      match dict_lookup key d with
      | Some x => Ok x
      | None => Raise (KeyError key)
      end
  | _ => Raise TypeError
  end.

(** The float [1.0]. *)
Definition float_one : spec_float := S754_finite false 4503599627370496 (-52).

(** [v - 1]: on a [bool] or an [int] the integer difference, on a [float]
    the binary64 difference. *)
Definition sub1 (v : pyval) : result pyval :=
  match v with
  | PInt z => Ok (PInt (z - 1))
  | PBool b => Ok (PInt ((if b then 1 else 0) - 1))
  | PFloat f => Ok (PFloat (SFsub 53 1024 f float_one))
  | _ => Raise TypeError
  end.

(** [l[i]] on a list: a negative index counts from the end. *)
Definition list_getitem {A : Type} (l : list A) (i : pyval) : result A :=
  let at_index (z : Z) : result A :=
    let n := Z.of_nat (length l) in
    let k := if z <? 0 then z + n else z in
    if (k <? 0) || (n <=? k) then Raise IndexError
    else match l !! Z.to_nat k with
         | Some x => Ok x
         | None => Raise IndexError
         end in
  match i with
  | PInt z => at_index z
  | PBool b => at_index (if b then 1 else 0)
  | _ => Raise TypeError
  end.

(** [len(s)] of a string: the number of its code points. *)
Definition len (s : pystr) : pyval := PInt (Z.of_nat (length s)).

(** [v == s] for a string literal [s]. *)
Definition eq_str (v : pyval) (s : string) : bool :=
  match v with
  | PStr t => String.eqb t s
  | _ => false
  end.

(** The one-character strings a string iterates into, one per byte here
    and one per character in Python; the loop raises on the first of
    them, so only whether there is one matters. *)
Fixpoint chars (s : string) : list pyval :=
  match s with
  | EmptyString => []
  | String c s' => PStr (String c EmptyString) :: chars s'
  end.

(** [for diag in v]: the items the loop sees. *)
Definition iter (v : pyval) : result (list pyval) :=
  match v with
  | PList l => Ok l
  | PDict d => Ok (map (fun kv => PStr (fst kv)) d)
  | PStr s => Ok (chars s)
  | _ => Raise TypeError
  end.

(** [s.replace(old, new)] for one-character [old] and [new]. *)
Fixpoint replace (old new : ascii) (s : string) : string :=
  match s with
  | EmptyString => EmptyString
  | String c s' =>
      String (if Ascii.eqb c old then new else c) (replace old new s')
  end.

(** [s.startswith(pre)] *)
Definition startswith (s pre : string) : bool := String.prefix pre s.

(** ** What the method takes from outside the repository *)

Class Runtime : Type := mkRuntime {
  (** [sys.platform] *)
  sys_platform : string;
  (** The run of pylint on an argument list, given what was done to the
      outside before it: either it raises, or it leaves these bytes in the
      stream. *)
  pylint_lint_Run : list event -> list string -> result (list Byte.byte);
  (** [json.load] on the bytes of the stream; [None] when they do not
      parse. *)
  json_load : list Byte.byte -> option pyval;
  (** [str(v)] for a [v] that is not a string. *)
  py_str : pyval -> string
}.

Section PylintLinter.

Context `{RT : Runtime}.

(** One [{}] field of [str.format]. *)
Definition format_field (v : pyval) : string :=
  match v with
  | PStr s => s
  | _ => py_str v
  end.

(** ['[{}] {}'.format(a, b)] *)
Definition format_message (a b : pyval) : string :=
  ("[" ++ format_field a ++ "] " ++ format_field b)%string.

(** The [if]/[elif] chain on [diag['type']]: the value of [severity]
    after it, given its value before.  There is no [else]. *)
Definition severity_chain (ty : pyval) (severity : option DiagnosticSeverity)
  : option DiagnosticSeverity :=
  if eq_str ty "convention" then Some Information
  else if eq_str ty "error" then Some Error
  else if eq_str ty "fatal" then Some Error
  else if eq_str ty "refactor" then Some Hint
  else if eq_str ty "warning" then Some Warning
  else severity.

(** Reading the local variable [severity]. *)
Definition read_severity (severity : option DiagnosticSeverity)
  : result DiagnosticSeverity :=
  match severity with
  | Some s => Ok s
  | None => Raise (UnboundLocalError "severity")
  end.

(** The body of the [for] loop (lines 102-138).  The locals that live
    across iterations are [severity], unbound before the first
    assignment, and the list [diagnostics]. *)
Definition loop_body (document : Document) (diag : pyval)
    (locals : option DiagnosticSeverity * list Diagnostic)
  : result (option DiagnosticSeverity * list Diagnostic) :=
  let '(severity, diagnostics) := locals in
  v ← getitem diag "line";
  line ← sub1 v;
  col ← getitem diag "column";
  end_col ← match lines document with
            | [] => Ok (PInt 0)
            | _ :: _ => len <$> list_getitem (lines document) line
            end;
  let err_range :=
    {| start := {| line := line; character := col |};
       end_ := {| line := line; character := end_col |} |} in
  ty ← getitem diag "type";
  let severity := severity_chain ty severity in
  symbol ← getitem diag "symbol";
  msg ← getitem diag "message";
  sev ← read_severity severity;
  mret (severity,
        (diagnostics ++ [ {| source := "pylint";
                             range := err_range;
                             message := format_message symbol msg;
                             severity := sev |} ])%list).

(** The [for] loop over the items, threading the locals. *)
Fixpoint for_loop (document : Document) (items : list pyval)
    (locals : option DiagnosticSeverity * list Diagnostic)
  : result (option DiagnosticSeverity * list Diagnostic) :=
  match items with
  | [] => Ok locals
  | diag :: rest =>
      locals' ← loop_body document diag locals;
      for_loop document rest locals'
  end.

(** Lines 99-138: from the bytes of the stream to the list [diagnostics]. *)
Definition parse_diagnostics (document : Document)
    (bytesStream : list Byte.byte) : result (list Diagnostic) :=
  parsed ← match json_load bytesStream with
           | Some v => Ok v
           | None => Raise ValueError
           end;
  items ← iter parsed;
  snd <$> for_loop document items (None, []).

(** [pylint.lint.Run([path], reporter=JSONReporter(bytesStream), exit=False)] *)
Definition Run (args : list string) : Py (list Byte.byte) := fun w =>
  let w' := {| heap := heap w; last_diags := last_diags w;
               trace := (trace w ++ [PylintRun args])%list |} in
  (pylint_lint_Run (trace w) args, w').

(** [PylintLinter.lint].  The local [path] of the source is [run_path]
    here; [flags] is not used by the method. *)
Definition lint (document : Document) (is_saved : bool) (flags : string)
  : Py loc :=
  if negb is_saved then
    last_diags_getitem (path document)
  else
    let run_path :=
      if startswith sys_platform "win"
      then replace "\"%char "/"%char (path document)
      else path document in
    emit AstroidCacheClear;;
    bytesStream ← Run [run_path];
    if (length bytesStream =? 0)%nat then
      l ← new_list [];
      last_diags_setitem (path document) l;;
      new_list []
    else
      diagnostics ← lift (parse_diagnostics document bytesStream);
      l ← new_list diagnostics;
      last_diags_setitem (path document) l;;
      mret l.

(** [pyls_lint], the hook *)
Definition pyls_lint (document : Document) (is_saved : bool) : Py loc :=
  lint document is_saved "".

(** *** Names for the parts of a saved run *)

(** The path pylint is given (lines 64-66). *)
Definition run_path (document : Document) : string :=
  if startswith sys_platform "win"
  then replace "\"%char "/"%char (path document)
  else path document.

(** What the run of pylint in [lint document True] started from [w]
    gives. *)
Definition run_output (document : Document) (w : world)
  : result (list Byte.byte) :=
  pylint_lint_Run (trace w ++ [AstroidCacheClear])%list [run_path document].

(** The world after that run, before anything is stored. *)
Definition after_run (document : Document) (w : world) : world :=
  {| heap := heap w; last_diags := last_diags w;
     trace := (trace w ++ [AstroidCacheClear;
                           PylintRun [run_path document]])%list |}.

(** The world after a saved run that made the new list objects [objs] and
    stored the first of them under the document's path. *)
Definition stored (document : Document) (w : world)
    (objs : list (list Diagnostic)) : world :=
  {| heap := (heap w ++ objs)%list;
     last_diags := <[path document := length (heap w)]> (last_diags w);
     trace := trace (after_run document w) |}.

(** The run wrote a non-empty report, and [items] is what the [for] loop
    iterates over. *)
Definition parses_to (document : Document) (w : world) (items : list pyval)
  : Prop :=
  ∃ bytesStream parsed,
    run_output document w = Ok bytesStream ∧
    bytesStream ≠ [] ∧
    json_load bytesStream = Some parsed ∧
    iter parsed = Ok items.

End PylintLinter.

Arguments loop_body : simpl never.
Arguments list_getitem : simpl never.

(** ** The specification's words

    A RawFinding of the specification's data model, the reading of one loop
    item as such a finding, and the specification's severity table. *)

Record RawFinding : Type := mkRawFinding {
  rf_line : Z;
  rf_column : Z;
  rf_type : string;
  rf_symbol : string;
  rf_message : string
}.

(** The loop item [item] carries the five attributes of [rf]. *)
Definition is_finding (item : pyval) (rf : RawFinding) : Prop :=
  getitem item "line" = Ok (PInt (rf_line rf)) ∧
  getitem item "column" = Ok (PInt (rf_column rf)) ∧
  getitem item "type" = Ok (PStr (rf_type rf)) ∧
  getitem item "symbol" = Ok (PStr (rf_symbol rf)) ∧
  getitem item "message" = Ok (PStr (rf_message rf)).

(** The specification's table from [type] to [severity]. *)
Definition severity_of_type (ty : string) : option DiagnosticSeverity :=
  if String.eqb ty "convention" then Some Information
  else if String.eqb ty "error" then Some Error
  else if String.eqb ty "fatal" then Some Error
  else if String.eqb ty "refactor" then Some Hint
  else if String.eqb ty "warning" then Some Warning
  else None.

(** A finding of the data model: its type is one of the five. *)
Definition well_formed_finding (item : pyval) : Prop :=
  ∃ rf, is_finding item rf ∧ is_Some (severity_of_type (rf_type rf)).

(** A finding of the data model that lies in the document: its line is one
    of the document's lines, numbered from 1 (any line when the document
    has none). *)
Definition finding_in_range (document : Document) (item : pyval) : Prop :=
  ∃ rf, is_finding item rf ∧
        is_Some (severity_of_type (rf_type rf)) ∧
        (lines document = [] ∨
         1 <= rf_line rf <= Z.of_nat (length (lines document))).

(** The value of the local [severity] when the loop body starts on item
    [i], after it appended [ds] so far: unbound or [sev] at the first item,
    then the severity of the diagnostic before. *)
Definition severity_before (sev : option DiagnosticSeverity)
    (ds : list Diagnostic) (i : nat) : option DiagnosticSeverity :=
  match i with
  | O => sev
  | S j => severity <$> ds !! j
  end.

(** The sequence a location holds. *)
Definition sequence_at (w : world) (l : loc) : option (list Diagnostic) :=
  heap w !! l.

(** The sequence cached for a path, when the path has an entry. *)
Definition cached (w : world) (p : string) : option (list Diagnostic) :=
  last_diags w !! p ≫= sequence_at w.

(** ** The hook called again and again

    The host calls [pyls_lint] once per request and goes on whatever the
    call ends with.  [run_calls] is the world after a sequence of such
    calls, each a document and its [is_saved] flag. *)

Fixpoint run_calls `{RT : Runtime} (calls : list (Document * bool))
    (w : world) : world :=
  match calls with
  | [] => w
  | (document, is_saved) :: rest =>
      run_calls rest (pyls_lint document is_saved w).2
  end.

(** What a sequence of calls does to the outside: each call of a saved
    document clears astroid's cache and runs pylint on the path; a call
    of an unsaved document does nothing. *)
Definition outside_actions `{RT : Runtime} (calls : list (Document * bool))
  : list event :=
  flat_map (fun call : Document * bool =>
              if call.2
              then [AstroidCacheClear; PylintRun [run_path call.1]]
              else []) calls.

(** The value compares equal to one of the five type strings of the
    [if]/[elif] chain. *)
Definition recognized (ty : pyval) : bool :=
  eq_str ty "convention" || eq_str ty "error" || eq_str ty "fatal" ||
  eq_str ty "refactor" || eq_str ty "warning".

(** The keys the loop body reads from an item. *)
Definition consumed_keys : list string :=
  ["line"; "column"; "type"; "symbol"; "message"].

(** The shape every diagnostic built by the loop has: the source is
    [pylint], the range ends on the line it starts on, and the end
    character is a length. *)
Definition well_shaped (d : Diagnostic) : Prop :=
  source d = "pylint" ∧
  line (end_ (range d)) = line (start (range d)) ∧
  ∃ n : nat, character (end_ (range d)) = PInt (Z.of_nat n).

(** Every entry of the cache is the location of a list that exists, and
    every diagnostic of every list is well shaped. *)
Definition cache_sound (w : world) : Prop :=
  (∀ p l, last_diags w !! p = Some l -> is_Some (sequence_at w l)) ∧
  (∀ l ds d, sequence_at w l = Some ds -> d ∈ ds -> well_shaped d).

(** ** Concrete inputs

    A document, pylint reports as JSON text, and runtimes in which pylint
    writes a fixed report and [json.load] is the table of these reports. *)

Module Examples.

Definition nl : string := String "010"%char "".
Definition dq : string := String "034"%char "".

Definition quoted (s : string) : string := (dq ++ s ++ dq)%string.

Definition member (k v : string) : string := (quoted k ++ ": " ++ v)%string.

Definition report_object (obj msg msgid symbol column ty line : string)
  : string :=
  ("{" ++ member "obj" (quoted obj) ++ ", " ++
   member "path" (quoted "foo.py") ++ ", " ++
   member "message" (quoted msg) ++ ", " ++
   member "message-id" (quoted msgid) ++ ", " ++
   member "symbol" (quoted symbol) ++ ", " ++
   member "column" column ++ ", " ++
   member "type" (quoted ty) ++ ", " ++
   member "line" line ++ ", " ++
   member "module" (quoted "foo") ++ "}")%string.

Definition finding (obj msg msgid symbol : string) (column : Z)
    (ty : string) (line : Z) : pyval :=
  PDict [("obj", PStr obj); ("path", PStr "foo.py"); ("message", PStr msg);
         ("message-id", PStr msgid); ("symbol", PStr symbol);
         ("column", PInt column); ("type", PStr ty); ("line", PInt line);
         ("module", PStr "foo")].

(** The code points of a text written in ASCII. *)
Definition text (s : string) : pystr :=
  map N_of_ascii (list_ascii_of_string s).

(** The document: six lines, the fifth of length 12. *)
Definition foo_py : Document :=
  {| path := "C:\src\foo.py";
     lines := [text ("import os" ++ nl); text nl; text nl; text nl;
               text ("def main():" ++ nl); text ("    pass" ++ nl)] |}.

Definition empty_py : Document := {| path := "__init__.py"; lines := [] |}.

(** The finding of the source's comment. *)
Definition docstring_text : string :=
  ("[" ++ report_object "main" "Missing function docstring" "C0111"
            "missing-docstring" "0" "convention" "5" ++ "]")%string.
Definition docstring_finding : pyval :=
  finding "main" "Missing function docstring" "C0111" "missing-docstring"
          0 "convention" 5.

Definition unused_finding : pyval :=
  finding "" "Unused import os" "W0611" "unused-import" 0 "warning" 1.
Definition disabled_finding : pyval :=
  finding "" "Locally disabling unused-import (W0611)" "I0011"
          "locally-disabled" 0 "info" 1.

(** A warning followed by a finding of type [info]. *)
Definition warning_info_text : string :=
  ("[" ++ report_object "" "Unused import os" "W0611" "unused-import"
            "0" "warning" "1" ++ ", " ++
   report_object "" "Locally disabling unused-import (W0611)" "I0011"
            "locally-disabled" "0" "info" "1" ++ "]")%string.

(** A finding of type [info] alone. *)
Definition info_text : string :=
  ("[" ++ report_object "" "Locally disabling unused-import (W0611)" "I0011"
            "locally-disabled" "0" "info" "1" ++ "]")%string.

(** A finding on line 99, and one on line 0. *)
Definition far_text : string :=
  ("[" ++ report_object "" "invalid syntax" "E0001" "syntax-error"
            "0" "error" "99" ++ "]")%string.
Definition far_finding : pyval :=
  finding "" "invalid syntax" "E0001" "syntax-error" 0 "error" 99.

Definition zero_text : string :=
  ("[" ++ report_object "" "invalid syntax" "E0001" "syntax-error"
            "0" "error" "0" ++ "]")%string.
Definition zero_finding : pyval :=
  finding "" "invalid syntax" "E0001" "syntax-error" 0 "error" 0.

(** A report cut short. *)
Definition truncated_text : string := "[{".

Definition table : list (string * pyval) :=
  [(docstring_text, PList [docstring_finding]);
   (warning_info_text, PList [unused_finding; disabled_finding]);
   (info_text, PList [disabled_finding]);
   (far_text, PList [far_finding]);
   (zero_text, PList [zero_finding])].

Definition table_load (bytesStream : list Byte.byte) : option pyval :=
  dict_lookup (string_of_list_byte bytesStream) table.

Definition str_of (v : pyval) : string :=
  match v with
  | PNone => "None"
  | PBool true => "True"
  | PBool false => "False"
  | PStr s => s
  | _ => "?"
  end.

(** The runtime on [platform] in which pylint's run gives [out]. *)
Definition runtime (platform : string) (out : result (list Byte.byte))
  : Runtime :=
  {| sys_platform := platform;
     pylint_lint_Run := fun _ _ => out;
     json_load := table_load;
     py_str := str_of |}.

Definition writes (text : string) : result (list Byte.byte) :=
  Ok (list_byte_of_string text).

Definition fresh_world : world :=
  {| heap := []; last_diags := ∅; trace := [] |}.

Definition docstring_diagnostic : Diagnostic :=
  {| source := "pylint";
     range := {| start := {| line := PInt 4; character := PInt 0 |};
                 end_ := {| line := PInt 4; character := PInt 12 |} |};
     message := "[missing-docstring] Missing function docstring";
     severity := Information |}.

End Examples.

(** More reports: JSON that is not a list of findings. *)

Module MoreExamples.

Import Examples.

(** The report [null]. *)
Definition null_text : string := "null".

(** The report [{}]. *)
Definition empty_object_text : string := "{}".

(** A report whose only item has a line and nothing else. *)
Definition bare_text : string := ("[{" ++ member "line" "1" ++ "}]")%string.
Definition bare_item : pyval := PDict [("line", PInt 1)].

(** A finding on line -5. *)
Definition back_text : string :=
  ("[" ++ report_object "" "invalid syntax" "E0001" "syntax-error"
            "0" "error" "-5" ++ "]")%string.
Definition back_finding : pyval :=
  finding "" "invalid syntax" "E0001" "syntax-error" 0 "error" (-5).

(** A finding of type [info] on line 1 followed by an error on line 99. *)
Definition info_far_text : string :=
  ("[" ++ report_object "" "Locally disabling unused-import (W0611)" "I0011"
            "locally-disabled" "0" "info" "1" ++ ", " ++
   report_object "" "invalid syntax" "E0001" "syntax-error"
            "0" "error" "99" ++ "]")%string.

(** The warning on line 1 alone. *)
Definition unused_text : string :=
  ("[" ++ report_object "" "Unused import os" "W0611" "unused-import"
            "0" "warning" "1" ++ "]")%string.

Definition table : list (string * pyval) :=
  Examples.table ++
  [(null_text, PNone);
   (empty_object_text, PDict []);
   (bare_text, PList [bare_item]);
   (back_text, PList [back_finding]);
   (info_far_text, PList [disabled_finding; far_finding]);
   (unused_text, PList [unused_finding])].

Definition table_load (bytesStream : list Byte.byte) : option pyval :=
  dict_lookup (string_of_list_byte bytesStream) table.

(** The runtime on [platform] in which pylint's run gives [out], with the
    larger table. *)
Definition runtime (platform : string) (out : result (list Byte.byte))
  : Runtime :=
  {| sys_platform := platform;
     pylint_lint_Run := fun _ _ => out;
     json_load := table_load;
     py_str := str_of |}.

(** A second document, without backslashes in its path. *)
Definition bar_py : Document :=
  {| path := "/src/bar.py"; lines := [text ("x = 1" ++ nl)] |}.

(** A document whose only line has a character outside ASCII: the six
    code points of U+65E5, space, [=], space, [1] and the newline. *)
Definition sun_py : Document :=
  {| path := "/src/sun.py"; lines := [[26085; 32; 61; 32; 49; 10]%N] |}.

End MoreExamples.

(** ** Properties *)

Section Properties.

Context `{RT : Runtime}.

Implicit Types (document : Document) (w : world) (items : list pyval).
Implicit Types (locals : option DiagnosticSeverity * list Diagnostic).

Ltac unfold_py :=
  unfold mbind, mret, Py_bind, Py_ret, lift, emit, Run, new_list,
    last_diags_setitem in *; simpl in *.

Ltac unfold_result :=
  unfold mbind, mret, fmap, result_bind, result_ret, result_fmap in *;
  simpl in *.

(** *** The two branches of [lint] *)

Lemma lint_unsaved document flags w :
  lint document false flags w = last_diags_getitem (path document) w.
Proof. reflexivity. Qed.

Lemma last_diags_getitem_hit key l w :
  last_diags w !! key = Some l -> last_diags_getitem key w = (Ok l, w).
Proof. intros H. unfold last_diags_getitem. by rewrite H. Qed.

Lemma last_diags_getitem_miss key w :
  last_diags w !! key = None ->
  last_diags_getitem key w =
    (Ok (length (heap w)),
     {| heap := heap w ++ [[]];
        last_diags := <[key := length (heap w)]> (last_diags w);
        trace := trace w |}).
Proof. intros H. unfold last_diags_getitem. by rewrite H. Qed.

Lemma lint_saved document flags w :
  lint document true flags w =
    match run_output document w with
    | Raise e => (Raise e, after_run document w)
    | Ok bytesStream =>
        if (length bytesStream =? 0)%nat
        then (Ok (S (length (heap w))), stored document w [[]; []])
        else match parse_diagnostics document bytesStream with
             | Raise e => (Raise e, after_run document w)
             | Ok ds => (Ok (length (heap w)), stored document w [ds])
             end
    end.
Proof.
  unfold lint, run_output, after_run, stored, run_path. unfold_py.
  rewrite <- !(app_assoc (trace w)). simpl.
  destruct (pylint_lint_Run _ _) as [bytesStream|e]; [|done].
  destruct (length bytesStream =? 0)%nat.
  - rewrite <- app_assoc, length_app, Nat.add_comm. done.
  - destruct (parse_diagnostics document bytesStream); done.
Qed.

Lemma parse_diagnostics_parsed document bytesStream parsed items :
  json_load bytesStream = Some parsed ->
  iter parsed = Ok items ->
  parse_diagnostics document bytesStream =
    snd <$> for_loop document items (None, []).
Proof.
  intros Hj Hi. unfold parse_diagnostics. rewrite Hj. unfold_result.
  by rewrite Hi.
Qed.

Lemma lint_saved_parsed document flags w items :
  parses_to document w items ->
  lint document true flags w =
    match for_loop document items (None, []) with
    | Raise e => (Raise e, after_run document w)
    | Ok locals => (Ok (length (heap w)), stored document w [snd locals])
    end.
Proof.
  intros (bytesStream & parsed & Hrun & Hne & Hj & Hi).
  rewrite lint_saved, Hrun.
  destruct bytesStream as [|b bytesStream]; [done|]. simpl.
  rewrite (parse_diagnostics_parsed _ _ _ _ Hj Hi).
  destruct (for_loop document items (None, [])); done.
Qed.

(** *** Indexing the lines *)

Lemma list_getitem_inside {A} (l : list A) z x :
  0 <= z ->
  l !! Z.to_nat z = Some x ->
  list_getitem l (PInt z) = Ok x.
Proof.
  intros Hz Hx. pose proof (lookup_lt_Some _ _ _ Hx) as Hlt.
  unfold list_getitem.
  destruct (z <? 0) eqn:E1; [lia|].
  destruct (z <? 0) eqn:E2; [lia|].
  destruct (Z.of_nat (length l) <=? z) eqn:E3; [lia|]. simpl.
  by rewrite Hx.
Qed.

Lemma list_getitem_Ok_inside {A} (l : list A) z x :
  0 <= z ->
  list_getitem l (PInt z) = Ok x ->
  l !! Z.to_nat z = Some x.
Proof.
  intros Hz. unfold list_getitem.
  destruct (z <? 0) eqn:E1; [lia|]. rewrite E1.
  destruct (Z.of_nat (length l) <=? z); simpl; [done|].
  destruct (l !! Z.to_nat z); [|done]. by intros [= ->].
Qed.



Lemma list_getitem_int_Raise {A} (l : list A) z e :
  list_getitem l (PInt z) = Raise e -> e = IndexError.
Proof.
  unfold list_getitem.
  repeat case_match; intros; simplify_eq; done.
Qed.

(** *** One pass through the loop body *)

Lemma loop_body_Ok document diag sev acc locals' :
  loop_body document diag (sev, acc) = Ok locals' ->
  ∃ d, locals' = (Some (severity d), acc ++ [d]) ∧
       loop_body document diag (sev, []) = Ok (Some (severity d), [d]).
Proof.
  unfold loop_body. unfold_result. intros H.
  repeat case_match; simplify_eq.
  all: unfold read_severity in *; repeat case_match; simplify_eq.
  all: eexists (mkDiagnostic _ _ _ _); split; simpl; reflexivity.
Qed.

(** *** The whole loop *)

Lemma for_loop_Ok document items sev acc locals' :
  for_loop document items (sev, acc) = Ok locals' ->
  ∃ ds, snd locals' = acc ++ ds ∧
        length ds = length items ∧
        ∀ i item, items !! i = Some item ->
          ∃ d, ds !! i = Some d ∧
               loop_body document item (severity_before sev ds i, [])
               = Ok (Some (severity d), [d]).
Proof.
  revert sev acc.
  induction items as [|diag rest IH]; intros sev acc; simpl.
  - intros [= <-]. exists []. simpl. rewrite app_nil_r.
    split_and!; [done..|]. intros i item Hi. by destruct i.
  - unfold_result.
    destruct (loop_body document diag (sev, acc)) as [locals1|e] eqn:Hb;
      [|done].
    apply loop_body_Ok in Hb as (d & -> & Hd).
    intros Hrest. apply IH in Hrest as (ds & Hacc & Hlen & Hds).
    exists (d :: ds). rewrite Hacc, <- app_assoc. simpl.
    split_and!; [done|by rewrite Hlen|].
    intros [|i] item Hi; simpl in *.
    + simplify_eq. eauto.
    + destruct (Hds i item Hi) as (d' & Hd' & Hbody).
      exists d'. split; [done|].
      destruct i as [|j]; simpl in *; [done|]. done.
Qed.

(** An item on which the body raises whatever the locals are makes the
    loop raise. *)
Lemma for_loop_raises document items item locals :
  item ∈ items ->
  (∀ locals1, ∃ e, loop_body document item locals1 = Raise e) ->
  ∃ e, for_loop document items locals = Raise e.
Proof.
  intros Hin Hraise. revert locals.
  induction items as [|diag rest IH]; intros locals.
  - by apply not_elem_of_nil in Hin.
  - simpl. unfold_result.
    destruct (loop_body document diag locals) as [locals1|e] eqn:Hb;
      [|eauto].
    apply elem_of_cons in Hin as [->|Hin].
    + destruct (Hraise locals) as [e He]. congruence.
    + by apply IH.
Qed.


(** *** The objects of the heap *)

Lemma stored_old document w objs l ds :
  sequence_at w l = Some ds ->
  sequence_at (stored document w objs) l = Some ds.
Proof.
  unfold sequence_at, stored. simpl. intros H.
  by apply lookup_app_l_Some.
Qed.

Lemma stored_first document w ds objs :
  sequence_at (stored document w (ds :: objs)) (length (heap w)) = Some ds.
Proof. unfold sequence_at, stored. simpl. apply list_lookup_middle. done. Qed.

Lemma stored_second document w ds ds' objs :
  sequence_at (stored document w (ds :: ds' :: objs)) (S (length (heap w)))
  = Some ds'.
Proof.
  unfold sequence_at, stored. simpl.
  rewrite (lookup_app_r (heap w)) by lia.
  by replace (S (length (heap w)) - length (heap w))%nat with 1%nat by lia.
Qed.

Lemma stored_cached document w ds objs :
  cached (stored document w (ds :: objs)) (path document) = Some ds.
Proof.
  unfold cached. simpl. rewrite lookup_insert_eq. simpl.
  apply stored_first.
Qed.

(** *** Unsaved documents *)

(** C1. For every document path, [lint] with [is_saved = False] returns
    the list cached for that path as it is (the very object, in an
    unchanged world), or the empty list when the path has no entry,
    and nothing is done to the outside: pylint is not run. *)
Theorem lint_unsaved_returns_cached document flags w :
  let r := lint document false flags w in
  trace r.2 = trace w ∧
  match last_diags w !! path document with
  | Some l => r = (Ok l, w)
  | None => ∃ l, r.1 = Ok l ∧ sequence_at r.2 l = Some []
  end.
Proof.
  simpl. rewrite lint_unsaved.
  destruct (last_diags w !! path document) as [l|] eqn:Hc.
  - rewrite (last_diags_getitem_hit _ _ _ Hc). done.
  - rewrite (last_diags_getitem_miss _ _ Hc). simpl. split; [done|].
    eexists. split; [done|]. unfold sequence_at. simpl.
    by apply list_lookup_middle.
Qed.

(** C9, as amended. [lint] with [is_saved = False] overwrites no entry
    of the cache and touches no entry of another path, and the lists that
    exist keep their contents; when the document's path has an entry the
    world is unchanged, and when it has none the [defaultdict] creates
    one: a single list is made, it is empty, it is at a location where no
    list was before, and the entry of the path is that location. *)
Theorem lint_unsaved_cache_frame document flags w :
  let w' := (lint document false flags w).2 in
  (∀ p l, last_diags w !! p = Some l -> last_diags w' !! p = Some l) ∧
  (∀ p, p ≠ path document -> last_diags w' !! p = last_diags w !! p) ∧
  (∀ l ds, sequence_at w l = Some ds -> sequence_at w' l = Some ds) ∧
  match last_diags w !! path document with
  | Some _ => w' = w
  | None =>
      ∃ lc, last_diags w' = <[path document := lc]> (last_diags w) ∧
            sequence_at w lc = None ∧
            heap w' = heap w ++ [[]] ∧
            sequence_at w' lc = Some [] ∧
            cached w' (path document) = Some []
  end.
Proof.
  simpl. rewrite lint_unsaved.
  destruct (last_diags w !! path document) as [l|] eqn:Hc.
  - rewrite (last_diags_getitem_hit _ _ _ Hc). done.
  - rewrite (last_diags_getitem_miss _ _ Hc). simpl. split_and!.
    + intros p l Hp. rewrite lookup_insert_ne; [done|congruence].
    + intros p Hp. by rewrite lookup_insert_ne.
    + intros l ds. unfold sequence_at. simpl. apply lookup_app_l_Some.
    + exists (length (heap w)). unfold cached, sequence_at. simpl.
      split_and!.
      * done.
      * by apply lookup_ge_None.
      * done.
      * by apply list_lookup_middle.
      * rewrite lookup_insert_eq. simpl. by apply list_lookup_middle.
Qed.

(** *** Saved documents: no findings, and failures *)

(** C5. When the run of pylint leaves the stream empty, [lint] stores a
    new empty list under the document's path and returns an empty list
    (another new object); this is all it changes. *)
Theorem lint_saved_empty_output document flags w :
  run_output document w = Ok [] ->
  ∃ l, lint document true flags w = (Ok l, stored document w [[]; []]) ∧
       sequence_at (stored document w [[]; []]) l = Some [] ∧
       cached (stored document w [[]; []]) (path document) = Some [].
Proof.
  intros Hrun. rewrite lint_saved, Hrun. simpl.
  eexists. split; [done|]. split.
  - apply stored_second.
  - apply stored_cached.
Qed.

(** C8. When the run of pylint raises, or leaves bytes that [json.load]
    rejects, [lint] ends with that exception: it returns nothing, pylint
    was run once, and the cache and the lists are as before. *)
Theorem lint_saved_failure_propagates document flags w e :
  run_output document w = Raise e ∨
  (∃ bytesStream, run_output document w = Ok bytesStream ∧
                  bytesStream ≠ [] ∧
                  json_load bytesStream = None ∧ e = ValueError) ->
  let r := lint document true flags w in
  r.1 = Raise e ∧
  last_diags r.2 = last_diags w ∧
  heap r.2 = heap w ∧
  trace r.2 = trace w ++ [AstroidCacheClear; PylintRun [run_path document]].
Proof.
  simpl. rewrite lint_saved.
  intros [Hrun|(bytesStream & Hrun & Hne & Hj & ->)]; rewrite Hrun.
  - done.
  - destruct bytesStream as [|b bytesStream]; [done|]. simpl.
    unfold parse_diagnostics. rewrite Hj. done.
Qed.

(** *** Saved documents: the path given to pylint *)




Lemma lint_saved_trace document flags w :
  trace (lint document true flags w).2 = trace (after_run document w).
Proof.
  rewrite lint_saved. repeat case_match; done.
Qed.

Lemma lint_saved_Ok document flags w l :
  (lint document true flags w).1 = Ok l ->
  ∃ objs, (lint document true flags w).2 = stored document w objs ∧
          sequence_at (stored document w objs) (length (heap w))
          = sequence_at (stored document w objs) l.
Proof.
  rewrite lint_saved. repeat case_match; simpl; intros [= <-].
  - eexists. split; [done|]. by rewrite stored_first, stored_second.
  - eexists. split; done.
Qed.


(** *** Saved documents: linting twice *)

(** C7. Two calls of [lint] on a saved document, one after the other,
    with the same document and the same output of pylint: both end the
    same way.  When they return, the two lists returned hold the same
    sequence, the first list still holds it after the second call, and
    the cache holds that sequence for the path after each call: the
    second call stored a list of its own, it did not extend the first. *)
Theorem lint_saved_twice document flags w :
  let r1 := lint document true flags w in
  let r2 := lint document true flags r1.2 in
  run_output document r1.2 = run_output document w ->
  match r1.1, r2.1 with
  | Ok l1, Ok l2 =>
      ∃ ds, sequence_at r1.2 l1 = Some ds ∧
            sequence_at r2.2 l2 = Some ds ∧
            sequence_at r2.2 l1 = Some ds ∧
            cached r1.2 (path document) = Some ds ∧
            cached r2.2 (path document) = Some ds
  | Raise e1, Raise e2 => e1 = e2
  | _, _ => False
  end.
Proof.
  simpl. intros Hrun.
  rewrite (lint_saved document flags (lint document true flags w).2), Hrun.
  rewrite !(lint_saved document flags w).
  destruct (run_output document w) as [bytesStream|e]; [|done].
  destruct (length bytesStream =? 0)%nat.
  - simpl. exists []. split_and!.
    + apply stored_second.
    + apply stored_second.
    + apply stored_old, stored_second.
    + apply stored_cached.
    + apply stored_cached.
  - destruct (parse_diagnostics document bytesStream) as [ds|e]; [|done].
    simpl. exists ds. split_and!.
    + apply stored_first.
    + apply stored_first.
    + apply stored_old, stored_first.
    + apply stored_cached.
    + apply stored_cached.
Qed.

(** *** Saved documents: the diagnostics *)

(** What a saved run returns when the report parses: the list it stored,
    one diagnostic per item, each the one the loop body appends for its
    item. *)
Lemma lint_saved_returns document flags w items l w' :
  parses_to document w items ->
  lint document true flags w = (Ok l, w') ->
  ∃ ds, sequence_at w' l = Some ds ∧
        cached w' (path document) = Some ds ∧
        length ds = length items ∧
        ∀ i item, items !! i = Some item ->
          ∃ d, ds !! i = Some d ∧
               loop_body document item (severity_before None ds i, [])
               = Ok (Some (severity d), [d]).
Proof.
  intros Hp. rewrite (lint_saved_parsed _ _ _ _ Hp).
  destruct (for_loop document items (None, [])) as [locals|e] eqn:Hloop;
    [|done].
  intros [= <- <-].
  apply for_loop_Ok in Hloop as (ds & Hds & Hlen & Hitems).
  simpl in Hds. rewrite Hds.
  exists ds. split_and!; [apply stored_first|apply stored_cached|done..].
Qed.

Lemma severity_chain_recognized ty sev s :
  severity_of_type ty = Some s ->
  severity_chain (PStr ty) sev = Some s.
Proof.
  unfold severity_of_type, severity_chain. simpl.
  repeat case_match; congruence.
Qed.

Lemma severity_chain_unrecognized ty sev :
  severity_of_type ty = None ->
  severity_chain (PStr ty) sev = sev.
Proof.
  unfold severity_of_type, severity_chain. simpl.
  repeat case_match; congruence.
Qed.

(** The loop body on a finding of the data model. *)
Lemma loop_body_finding document item rf sev acc :
  is_finding item rf ->
  loop_body document item (sev, acc) =
    match match lines document with
          | [] => Ok (PInt 0)
          | _ :: _ =>
              len <$> list_getitem (lines document) (PInt (rf_line rf - 1))
          end with
    | Raise e => Raise e
    | Ok end_col =>
        match severity_chain (PStr (rf_type rf)) sev with
        | None => Raise (UnboundLocalError "severity")
        | Some s =>
            Ok (Some s,
                acc ++ [ {| source := "pylint";
                            range :=
                              {| start := {| line := PInt (rf_line rf - 1);
                                             character := PInt (rf_column rf) |};
                                 end_ := {| line := PInt (rf_line rf - 1);
                                            character := end_col |} |};
                            message := ("[" ++ rf_symbol rf ++ "] "
                                        ++ rf_message rf)%string;
                            severity := s |} ])
        end
    end.
Proof.
  intros (Hl & Hc & Ht & Hs & Hm).
  unfold loop_body. unfold_result. rewrite Hl. simpl. rewrite Hc.
  destruct (match lines document with [] => _ | _ => _ end) as [end_col|e];
    [|done].
  rewrite Ht, Hs, Hm. unfold read_severity.
  destruct (severity_chain (PStr (rf_type rf)) sev); done.
Qed.

Lemma for_loop_findings document items locals :
  Forall (finding_in_range document) items ->
  ∃ locals', for_loop document items locals = Ok locals'.
Proof.
  intros Hall. revert locals.
  induction Hall as [|item rest (rf & Hrf & [s Hs] & Hrange) _ IH];
    intros [sev acc]; simpl; [eauto|].
  unfold_result. rewrite (loop_body_finding _ _ _ _ _ Hrf).
  rewrite (severity_chain_recognized _ _ _ Hs).
  destruct (lines document) as [|first others] eqn:Hlines.
  - apply IH.
  - destruct Hrange as [|Hrange]; [done|].
    destruct (lookup_lt_is_Some_2 (first :: others)
                (Z.to_nat (rf_line rf - 1))) as [text Htext]; [lia|].
    rewrite (list_getitem_inside _ _ text) by (lia || done).
    unfold_result. apply IH.
Qed.

(** C2. A saved run whose report parses returns a list when the items are
    findings of the data model that lie in the document.  Whenever such a
    run returns, the list returned has one diagnostic per item, and the
    diagnostic of every finding has: start line the finding's line minus
    one; start character the finding's column; end line the start line;
    end character 0 when the document has no lines, and otherwise the
    number of code points of the line that [document.lines[line - 1]]
    selects, which for a finding's line from 1 on is the line at that
    position; message
    [[symbol] message]; source [pylint]. *)
Theorem lint_saved_diagnostic document flags w items :
  parses_to document w items ->
  (Forall (finding_in_range document) items ->
   ∃ l w', lint document true flags w = (Ok l, w')) ∧
  ∀ l w', lint document true flags w = (Ok l, w') ->
    ∃ ds, sequence_at w' l = Some ds ∧
          length ds = length items ∧
          ∀ i item rf, items !! i = Some item -> is_finding item rf ->
            ∃ d, ds !! i = Some d ∧
                 line (start (range d)) = PInt (rf_line rf - 1) ∧
                 character (start (range d)) = PInt (rf_column rf) ∧
                 line (end_ (range d)) = line (start (range d)) ∧
                 match lines document with
                 | [] => character (end_ (range d)) = PInt 0
                 | _ :: _ =>
                     ∃ text,
                       list_getitem (lines document) (PInt (rf_line rf - 1))
                       = Ok text ∧
                       character (end_ (range d))
                       = PInt (Z.of_nat (length text)) ∧
                       (1 <= rf_line rf ->
                        lines document !! Z.to_nat (rf_line rf - 1)
                        = Some text)
                 end ∧
                 message d = ("[" ++ rf_symbol rf ++ "] "
                              ++ rf_message rf)%string ∧
                 source d = "pylint".
Proof.
  intros Hp. split.
  { intros Hall. rewrite (lint_saved_parsed _ _ _ _ Hp).
    destruct (for_loop_findings document items (None, []) Hall) as [? ->].
    eauto. }
  intros l w' Hlint.
  destruct (lint_saved_returns _ _ _ _ _ _ Hp Hlint)
    as (ds & Hseq & _ & Hlen & Hitems).
  exists ds. split_and!; [done..|].
  intros i item rf Hi Hrf.
  destruct (Hitems i item Hi) as (d & Hd & Hbody).
  exists d. split; [done|].
  rewrite (loop_body_finding _ _ _ _ _ Hrf) in Hbody.
  destruct (lines document) as [|first rest] eqn:Hlines.
  - destruct (severity_chain _ _); [|done].
    injection Hbody as _ <-. done.
  - unfold_result.
    destruct (list_getitem (first :: rest) (PInt (rf_line rf - 1)))
      as [text|e] eqn:Hget; simpl in Hbody; [|done].
    destruct (severity_chain _ _); [|done].
    injection Hbody as _ <-. simpl. split_and!; try done.
    exists text. split_and!; [done..|].
    intros Hone. apply list_getitem_Ok_inside; [lia|done].
Qed.


(** *** Saved documents: lines outside the document *)






(** *** Saved documents: a type outside the five *)

(** After a saved run whose report parses and which returns, an item
    whose type is a string outside the five is not the first item, and
    its diagnostic has the severity of the diagnostic before it. *)
Lemma lint_saved_stale_severity document flags w items l w' i item ty :
  parses_to document w items ->
  lint document true flags w = (Ok l, w') ->
  items !! i = Some item ->
  getitem item "type" = Ok (PStr ty) ->
  severity_of_type ty = None ->
  ∃ ds j d d', sequence_at w' l = Some ds ∧ i = S j ∧
               ds !! j = Some d' ∧ ds !! i = Some d ∧
               severity d = severity d'.
Proof.
  intros Hp Hlint Hi Hty Hnone.
  destruct (lint_saved_returns _ _ _ _ _ _ Hp Hlint)
    as (ds & Hseq & _ & _ & Hitems).
  destruct (Hitems i item Hi) as (d & Hd & Hbody).
  revert Hbody. unfold loop_body. unfold_result.
  repeat case_match; try done.
  all: simplify_eq.
  all: rewrite (severity_chain_unrecognized _ _ Hnone).
  all: intros [= Hs _].
  all: destruct i as [|j]; simpl in Hs; [done|].
  all: destruct (ds !! j) as [d'|] eqn:Hj; simplify_eq.
  all: exists ds, j, d, d'; split_and!; try done.
  all: simpl in Hs; congruence.
Qed.

(** The first item having such a type, the run raises
    [UnboundLocalError] once the item's other fields have been read. *)
Lemma lint_saved_unbound_severity document flags w item rest rf :
  parses_to document w (item :: rest) ->
  is_finding item rf ->
  severity_of_type (rf_type rf) = None ->
  (lint document true flags w).1 = Raise IndexError ∨
  (lint document true flags w).1 = Raise (UnboundLocalError "severity").
Proof.
  intros Hp Hrf Hnone. rewrite (lint_saved_parsed _ _ _ _ Hp). simpl.
  unfold_result. rewrite (loop_body_finding _ _ _ _ _ Hrf).
  rewrite (severity_chain_unrecognized _ _ Hnone).
  destruct (lines document) as [|first others]; [by right|].
  destruct (list_getitem (first :: others) (PInt (rf_line rf - 1)))
    as [text|e] eqn:Hget; unfold_result; [by right|].
  apply list_getitem_int_Raise in Hget as ->. by left.
Qed.

(** *** Further properties: objects, frames and composition *)

Lemma sequence_at_fresh w l :
  (length (heap w) <= l)%nat -> sequence_at w l = None.
Proof. intros H. unfold sequence_at. by apply lookup_ge_None. Qed.

(** X1. The list a saved run returns is a new object.  When pylint wrote
    a report, the cache entry of the path is that very object; when
    pylint wrote nothing, the entry is another new object, and both hold
    the empty sequence. *)
Theorem lint_saved_returned_object document flags w l w' :
  lint document true flags w = (Ok l, w') ->
  sequence_at w l = None ∧
  ∃ lc, last_diags w' !! path document = Some lc ∧
        sequence_at w lc = None ∧
        match run_output document w with
        | Ok [] => lc ≠ l ∧ sequence_at w' l = Some [] ∧
                   sequence_at w' lc = Some []
        | _ => lc = l
        end.
Proof.
  rewrite lint_saved.
  destruct (run_output document w) as [[|b bytesStream]|e]; simpl;
    [| |done].
  - intros [= <- <-]. split; [apply sequence_at_fresh; lia|].
    exists (length (heap w)). simpl. rewrite lookup_insert_eq.
    split_and!; [done|by apply sequence_at_fresh|lia| |].
    + apply stored_second.
    + apply stored_first.
  - destruct (parse_diagnostics document (b :: bytesStream)); [|done].
    intros [= <- <-]. split; [by apply sequence_at_fresh|].
    exists (length (heap w)). simpl. rewrite lookup_insert_eq.
    split_and!; [done|by apply sequence_at_fresh|done].
Qed.

(** X2. Whatever [is_saved] is and however the call ends, [lint] leaves
    the entries of all other paths as they were, removes no entry, and
    changes the contents of no list that existed. *)
Theorem lint_frame document is_saved flags w :
  let w' := (lint document is_saved flags w).2 in
  (∀ p, p ≠ path document -> last_diags w' !! p = last_diags w !! p) ∧
  (∀ p, is_Some (last_diags w !! p) -> is_Some (last_diags w' !! p)) ∧
  (∀ l ds, sequence_at w l = Some ds -> sequence_at w' l = Some ds).
Proof.
  assert (∀ objs,
    (∀ p, p ≠ path document ->
          last_diags (stored document w objs) !! p = last_diags w !! p) ∧
    (∀ p, is_Some (last_diags w !! p) ->
          is_Some (last_diags (stored document w objs) !! p)) ∧
    (∀ l ds, sequence_at w l = Some ds ->
             sequence_at (stored document w objs) l = Some ds)) as Hstored.
  { intros objs. split_and!.
    - intros p Hp. simpl. by rewrite lookup_insert_ne.
    - intros p Hp. simpl.
      destruct (decide (path document = p)) as [->|Hne].
      + rewrite lookup_insert_eq. eauto.
      + by rewrite lookup_insert_ne.
    - intros l ds. apply stored_old. }
  simpl. destruct is_saved.
  - rewrite lint_saved. repeat case_match; simpl; try apply Hstored; done.
  - rewrite lint_unsaved.
    destruct (last_diags w !! path document) as [l|] eqn:Hc.
    + rewrite (last_diags_getitem_hit _ _ _ Hc). done.
    + rewrite (last_diags_getitem_miss _ _ Hc). simpl. split_and!.
      * intros p Hp. by rewrite lookup_insert_ne.
      * intros p Hp.
        destruct (decide (path document = p)) as [->|Hne].
        -- rewrite lookup_insert_eq. eauto.
        -- by rewrite lookup_insert_ne.
      * intros l ds. unfold sequence_at. simpl. apply lookup_app_l_Some.
Qed.

(** X3. A saved run that raises, whatever the exception, stores nothing:
    the cache and the lists are as before, and the outside saw one
    clearing of astroid's cache followed by one run of pylint. *)
Theorem lint_saved_raise_stores_nothing document flags w e :
  (lint document true flags w).1 = Raise e ->
  (lint document true flags w).2 = after_run document w.
Proof.
  rewrite lint_saved. repeat case_match; simpl; done.
Qed.

(** X4. Two calls on an unsaved document, one after the other: the second
    returns the same list object as the first and changes nothing. *)
Theorem lint_unsaved_twice document flags flags' w :
  let r := lint document false flags w in
  lint document false flags' r.2 = r.
Proof.
  simpl. rewrite !lint_unsaved.
  destruct (last_diags w !! path document) as [l|] eqn:Hc.
  - rewrite (last_diags_getitem_hit _ _ _ Hc). simpl.
    by apply last_diags_getitem_hit.
  - rewrite (last_diags_getitem_miss _ _ Hc). simpl.
    apply last_diags_getitem_hit. simpl. by rewrite lookup_insert_eq.
Qed.

(** X5. After the hook returned for a saved document, the hook on the
    same path unsaved returns a list holding the sequence the saved call
    returned, changes nothing and does not run pylint. *)
Theorem pyls_lint_saved_then_unsaved document document' w l w1 :
  pyls_lint document true w = (Ok l, w1) ->
  path document' = path document ->
  ∃ lc ds, pyls_lint document' false w1 = (Ok lc, w1) ∧
           sequence_at w1 lc = Some ds ∧
           sequence_at w1 l = Some ds.
Proof.
  unfold pyls_lint. intros Hlint Hpath.
  assert ((lint document true "" w).1 = Ok l) as Hl by by rewrite Hlint.
  apply lint_saved_Ok in Hl as (objs & Hw & Hseq).
  rewrite Hlint in Hw. simpl in Hw. subst w1.
  exists (length (heap w)).
  destruct (sequence_at (stored document w objs) l) as [ds|] eqn:Hds.
  - exists ds. rewrite lint_unsaved, Hpath. split; [|done].
    apply last_diags_getitem_hit. simpl. by rewrite lookup_insert_eq.
  - exfalso. revert Hlint Hds. rewrite lint_saved.
    repeat case_match; simpl; try done; intros [= <- Hobjs].
    + apply app_inv_head in Hobjs as <-. by rewrite stored_second.
    + apply app_inv_head in Hobjs as <-. by rewrite stored_first.
Qed.

(** X6. A saved run does not read the cache: from two worlds with the
    same trace, whatever their caches, lists and [flags], it ends the same
    way, with the same exception or with lists holding the same
    sequence. *)
Theorem lint_saved_ignores_cache document flags1 flags2 w1 w2 :
  trace w1 = trace w2 ->
  let r1 := lint document true flags1 w1 in
  let r2 := lint document true flags2 w2 in
  match r1.1, r2.1 with
  | Ok l1, Ok l2 =>
      ∃ ds, sequence_at r1.2 l1 = Some ds ∧ sequence_at r2.2 l2 = Some ds
  | Raise e1, Raise e2 => e1 = e2
  | _, _ => False
  end.
Proof.
  intros Htrace. simpl. rewrite !lint_saved.
  unfold run_output. rewrite Htrace.
  destruct (pylint_lint_Run _ _) as [bytesStream|e]; [|done].
  destruct (length bytesStream =? 0)%nat; simpl.
  - exists []. split; apply stored_second.
  - destruct (parse_diagnostics document bytesStream) as [ds|e]; [|done].
    simpl. exists ds. split; apply stored_first.
Qed.

Lemma replace_absent old new s :
  (∀ i, String.get i s ≠ Some old) -> replace old new s = s.
Proof.
  induction s as [|c s IH]; intros Hs; simpl; [done|].
  rewrite IH by (intros i; apply (Hs (S i))).
  destruct (Ascii.eqb c old) eqn:E; [|done].
  apply Ascii.eqb_eq in E as ->. by destruct (Hs 0%nat).
Qed.

(** X7. Where [sys.platform] does not start with [win], or the path has
    no backslash, pylint is run on the document's path as it is. *)
Theorem lint_saved_path_unchanged document flags w :
  startswith sys_platform "win" = false ∨
  (∀ i, String.get i (path document) ≠ Some "\"%char) ->
  trace (lint document true flags w).2
  = trace w ++ [AstroidCacheClear; PylintRun [path document]].
Proof.
  intros H. rewrite lint_saved_trace. unfold after_run, run_path. simpl.
  destruct H as [->|H]; [done|].
  rewrite (replace_absent _ _ _ H). by destruct (startswith _ _).
Qed.

(** *** Further properties: reports that are not lists of findings *)

(** X8. A non-empty report that parses to something other than a list:
    the empty object and the empty string give an empty list, stored and
    returned as one object; every other value makes [lint] raise
    [TypeError] and store nothing. *)
Theorem lint_saved_report_not_a_list document flags w bytesStream parsed :
  run_output document w = Ok bytesStream ->
  bytesStream ≠ [] ->
  json_load bytesStream = Some parsed ->
  (∀ l, parsed ≠ PList l) ->
  lint document true flags w =
    match parsed with
    | PDict [] | PStr EmptyString =>
        (Ok (length (heap w)), stored document w [[]])
    | _ => (Raise TypeError, after_run document w)
    end.
Proof.
  intros Hrun Hne Hj Hnl. rewrite lint_saved, Hrun.
  destruct bytesStream as [|b bytesStream]; [done|]. simpl.
  unfold parse_diagnostics. rewrite Hj. unfold_result.
  destruct parsed as [| | | |[|c s]|l|[|[k x] d]]; simpl; try done.
  by destruct (Hnl l).
Qed.

Lemma loop_body_getitem_Raise document item key e0 locals :
  key ∈ consumed_keys ->
  getitem item key = Raise e0 ->
  ∃ e, loop_body document item locals = Raise e.
Proof.
  intros Hkey Hget. destruct locals as [sev acc].
  unfold loop_body. unfold_result.
  unfold consumed_keys in Hkey.
  repeat (apply elem_of_cons in Hkey as [->|Hkey]);
    [..|by apply elem_of_nil in Hkey].
  all: repeat case_match; simplify_eq; eauto.
Qed.

(** X9. In a saved run whose report parses, an item that is not an object,
    or an object without one of the keys [line], [column], [type],
    [symbol], [message], wherever it stands among the items, makes [lint]
    raise and store nothing. *)
Theorem lint_saved_malformed_item document flags w items item key e0 :
  parses_to document w items ->
  item ∈ items ->
  key ∈ consumed_keys ->
  getitem item key = Raise e0 ->
  ∃ e, lint document true flags w = (Raise e, after_run document w).
Proof.
  intros Hp Hin Hkey Hget. rewrite (lint_saved_parsed _ _ _ _ Hp).
  destruct (for_loop_raises document items item (None, []) Hin) as [e ->].
  - intros locals1. by eapply loop_body_getitem_Raise.
  - eauto.
Qed.

Lemma severity_chain_not_recognized ty sev :
  recognized ty = false -> severity_chain ty sev = sev.
Proof.
  unfold recognized, severity_chain.
  repeat (destruct (eq_str ty _); simpl; [done|]). done.
Qed.

(** X10. After a saved run whose report parses and which returns, an item
    whose type is none of the five strings, whatever value it is, is not
    the first item, and its diagnostic has the severity of the diagnostic
    before it. *)
Theorem lint_saved_unrecognized_stale document flags w items l w' i item ty :
  parses_to document w items ->
  lint document true flags w = (Ok l, w') ->
  items !! i = Some item ->
  getitem item "type" = Ok ty ->
  recognized ty = false ->
  ∃ ds j d d', sequence_at w' l = Some ds ∧ i = S j ∧
               ds !! j = Some d' ∧ ds !! i = Some d ∧
               severity d = severity d'.
Proof.
  intros Hp Hlint Hi Hty Hnone.
  destruct (lint_saved_returns _ _ _ _ _ _ Hp Hlint)
    as (ds & Hseq & _ & _ & Hitems).
  destruct (Hitems i item Hi) as (d & Hd & Hbody).
  revert Hbody. unfold loop_body. unfold_result.
  repeat case_match; try done.
  all: simplify_eq.
  all: rewrite (severity_chain_not_recognized _ _ Hnone).
  all: intros [= Hs _].
  all: destruct i as [|j]; simpl in Hs; [done|].
  all: destruct (ds !! j) as [d'|] eqn:Hj; simplify_eq.
  all: exists ds, j, d, d'; split_and!; try done.
  all: simpl in Hs; congruence.
Qed.

Lemma list_getitem_Ok_range {A} (l : list A) z x :
  list_getitem l (PInt z) = Ok x ->
  - Z.of_nat (length l) <= z < Z.of_nat (length l).
Proof.
  unfold list_getitem.
  destruct (z <? 0) eqn:E1.
  - destruct (z + Z.of_nat (length l) <? 0) eqn:E2; simpl; [done|].
    intros _. lia.
  - rewrite E1. simpl.
    destruct (Z.of_nat (length l) <=? z) eqn:E3; [done|]. intros _. lia.
Qed.

Lemma list_getitem_range_Ok {A} (l : list A) z :
  - Z.of_nat (length l) <= z < Z.of_nat (length l) ->
  ∃ x, list_getitem l (PInt z) = Ok x.
Proof.
  intros Hz. unfold list_getitem.
  destruct (z <? 0) eqn:E1.
  - destruct (z + Z.of_nat (length l) <? 0) eqn:E2; [lia|].
    destruct (Z.of_nat (length l) <=? z + Z.of_nat (length l)) eqn:E3;
      [lia|]. simpl.
    destruct (lookup_lt_is_Some_2 l (Z.to_nat (z + Z.of_nat (length l))))
      as [x ->]; [lia|eauto].
  - rewrite E1.
    destruct (Z.of_nat (length l) <=? z) eqn:E3; [lia|]. simpl.
    destruct (lookup_lt_is_Some_2 l (Z.to_nat z)) as [x ->]; [lia|eauto].
Qed.

(** X11. In a saved run whose report parses, a first item whose type is
    none of the five strings makes [lint] raise and store nothing, whatever
    follows it; when the item has the other keys and an integer line that
    indexes the document (any line when the document has none), the
    exception is [UnboundLocalError] for [severity]. *)
Theorem lint_saved_unrecognized_first document flags w item rest ty :
  parses_to document w (item :: rest) ->
  getitem item "type" = Ok ty ->
  recognized ty = false ->
  (∃ e, lint document true flags w = (Raise e, after_run document w)) ∧
  ∀ n col symbol msg,
    getitem item "line" = Ok (PInt n) ->
    getitem item "column" = Ok col ->
    getitem item "symbol" = Ok symbol ->
    getitem item "message" = Ok msg ->
    lines document = [] ∨
    - Z.of_nat (length (lines document)) < n
      <= Z.of_nat (length (lines document)) ->
    lint document true flags w
    = (Raise (UnboundLocalError "severity"), after_run document w).
Proof.
  intros Hp Hty Hnone. rewrite (lint_saved_parsed _ _ _ _ Hp). simpl.
  unfold loop_body. unfold_result. rewrite Hty.
  rewrite (severity_chain_not_recognized _ _ Hnone). simpl. split.
  - repeat case_match; simplify_eq; eauto.
  - intros n col symbol msg -> -> -> -> Hrange. simpl.
    destruct (lines document) as [|first others] eqn:Hlines; [done|].
    destruct Hrange as [|Hrange]; [done|].
    destruct (list_getitem_range_Ok (first :: others) (n - 1)) as [x ->];
      [lia|done].
Qed.

Lemma for_loop_in_range document items locals :
  Forall well_formed_finding items ->
  Forall (fun item => ∀ n, getitem item "line" = Ok (PInt n) ->
            - Z.of_nat (length (lines document)) < n
              <= Z.of_nat (length (lines document))) items ->
  ∃ locals', for_loop document items locals = Ok locals'.
Proof.
  intros Hwf. revert locals.
  induction Hwf as [|item rest (rf & Hrf & [s Hs]) _ IH];
    intros [sev acc] Hrange; simpl; [eauto|].
  apply Forall_cons in Hrange as [Hn Hrange].
  unfold_result. rewrite (loop_body_finding _ _ _ _ _ Hrf).
  rewrite (severity_chain_recognized _ _ _ Hs).
  destruct (lines document) as [|first others] eqn:Hlines.
  - by apply IH.
  - destruct (list_getitem_range_Ok (first :: others) (rf_line rf - 1))
      as [x ->].
    { specialize (Hn _ (proj1 Hrf)). lia. }
    unfold_result. by apply IH.
Qed.

(** X12. In a saved run on a document with [k] lines, [k] at least 1,
    whose report parses to findings of the data model, [lint] returns
    exactly when every finding's line is greater than [-k] and at most
    [k]: the lines from [1 - k] to 0 index the document from its end. *)
Theorem lint_saved_returns_iff document flags w items :
  parses_to document w items ->
  Forall well_formed_finding items ->
  lines document ≠ [] ->
  (∃ l w', lint document true flags w = (Ok l, w')) ↔
  Forall (fun item => ∀ n, getitem item "line" = Ok (PInt n) ->
            - Z.of_nat (length (lines document)) < n
              <= Z.of_nat (length (lines document))) items.
Proof.
  intros Hp Hwf Hlines. split.
  - intros (l & w' & Hlint).
    destruct (lint_saved_returns _ _ _ _ _ _ Hp Hlint)
      as (ds & _ & _ & _ & Hitems).
    apply Forall_forall. intros item Hin n Hn.
    apply list_elem_of_lookup in Hin as [i Hi].
    destruct (Hitems i item Hi) as (d & _ & Hbody).
    revert Hbody. unfold loop_body. unfold_result. rewrite Hn. simpl.
    destruct (getitem item "column"); [|done].
    destruct (lines document) as [|first others] eqn:E; [done|].
    destruct (list_getitem (first :: others) (PInt (n - 1))) as [x|] eqn:Hx;
      simpl; [|done].
    apply list_getitem_Ok_range in Hx. intros _. simpl in Hx. lia.
  - intros Hrange. rewrite (lint_saved_parsed _ _ _ _ Hp).
    destruct (for_loop_in_range document items (None, []) Hwf Hrange)
      as [locals' ->].
    eauto.
Qed.

(** *** Further properties: sequences of calls *)

Lemma loop_body_well_shaped document item sev s d :
  loop_body document item (sev, []) = Ok (s, [d]) -> well_shaped d.
Proof.
  unfold loop_body. unfold_result. intros H.
  repeat case_match; simplify_eq.
  all: split_and!; [done..|]; simpl.
  - by exists 0%nat.
  - eexists. unfold len. reflexivity.
Qed.

Lemma parse_diagnostics_well_shaped document bytesStream ds d :
  parse_diagnostics document bytesStream = Ok ds ->
  d ∈ ds -> well_shaped d.
Proof.
  unfold parse_diagnostics. unfold_result.
  destruct (json_load bytesStream) as [parsed|]; [|done].
  destruct (iter parsed) as [items|]; [|done].
  destruct (for_loop document items (None, [])) as [locals|] eqn:Hloop;
    [|done].
  intros [= <-] Hin.
  apply for_loop_Ok in Hloop as (ds & Heq & Hlen & Hitems).
  rewrite Heq in Hin. simpl in Hin.
  apply list_elem_of_lookup in Hin as [i Hi].
  destruct (lookup_lt_is_Some_2 items i) as [item Hitem].
  { rewrite <- Hlen. by eapply lookup_lt_Some. }
  destruct (Hitems i item Hitem) as (d' & Hd' & Hbody).
  assert (d' = d) as -> by congruence.
  by eapply loop_body_well_shaped.
Qed.

(** What one call does to the cache and the lists: nothing, or new lists
    of well-shaped diagnostics with the first stored under the path. *)
Lemma lint_world document is_saved flags w :
  let w' := (lint document is_saved flags w).2 in
  (heap w' = heap w ∧ last_diags w' = last_diags w) ∨
  ∃ ds objs,
    heap w' = heap w ++ ds :: objs ∧
    last_diags w' = <[path document := length (heap w)]> (last_diags w) ∧
    ∀ ds' d, ds' ∈ ds :: objs -> d ∈ ds' -> well_shaped d.
Proof.
  simpl. destruct is_saved.
  - rewrite lint_saved.
    destruct (run_output document w) as [bytesStream|e]; [|by left].
    destruct (length bytesStream =? 0)%nat.
    + right. exists [], [[]]. split_and!; [done..|].
      intros ds' d Hds' Hd.
      repeat (apply elem_of_cons in Hds' as [->|Hds']);
        [by apply elem_of_nil in Hd..|by apply elem_of_nil in Hds'].
    + destruct (parse_diagnostics document bytesStream) as [ds|e] eqn:Hparse;
        [|by left].
      right. exists ds, []. split_and!; [done..|].
      intros ds' d Hds' Hd.
      apply elem_of_cons in Hds' as [->|Hds'];
        [|by apply elem_of_nil in Hds'].
      by eapply parse_diagnostics_well_shaped.
  - rewrite lint_unsaved.
    destruct (last_diags w !! path document) as [l|] eqn:Hc.
    + rewrite (last_diags_getitem_hit _ _ _ Hc). by left.
    + rewrite (last_diags_getitem_miss _ _ Hc). right.
      exists [], []. split_and!; [done..|].
      intros ds' d Hds' Hd.
      apply elem_of_cons in Hds' as [->|Hds'];
        [by apply elem_of_nil in Hd|by apply elem_of_nil in Hds'].
Qed.

Lemma lint_cache_sound document is_saved flags w :
  cache_sound w -> cache_sound (lint document is_saved flags w).2.
Proof.
  intros [Hentries Hlists].
  destruct (lint_world document is_saved flags w)
    as [[Hheap Hcache]|(ds & objs & Hheap & Hcache & Hshape)];
    unfold cache_sound, sequence_at in *.
  - rewrite Hheap, Hcache. done.
  - rewrite Hheap, Hcache. split.
    + intros p l. destruct (decide (path document = p)) as [->|Hne].
      * rewrite lookup_insert_eq. intros [= <-].
        rewrite list_lookup_middle by done. eauto.
      * rewrite lookup_insert_ne by done. intros Hp.
        destruct (Hentries p l Hp) as [ds0 Hds0].
        exists ds0. by apply lookup_app_l_Some.
    + intros l ds0 d Hl Hd.
      apply lookup_app_Some in Hl as [Hl|[_ Hl]].
      * by eapply Hlists.
      * eapply Hshape; [|done]. eapply list_elem_of_lookup_2. done.
Qed.

(** X13. The hook keeps the cache sound.  From a world in which every
    entry of the cache is a list that exists and every diagnostic is well
    shaped (source [pylint], a range that ends on the line it starts on,
    a length as end character), any sequence of calls, saved or not,
    returning or raising, leads to such a world. *)
Theorem run_calls_cache_sound calls w :
  cache_sound w -> cache_sound (run_calls calls w).
Proof.
  revert w. induction calls as [|[document is_saved] rest IH]; intros w Hw.
  - done.
  - simpl. apply IH. unfold pyls_lint. by apply lint_cache_sound.
Qed.

Lemma lint_unsaved_trace document flags w :
  trace (lint document false flags w).2 = trace w.
Proof.
  rewrite lint_unsaved.
  destruct (last_diags w !! path document) as [l|] eqn:Hc.
  - by rewrite (last_diags_getitem_hit _ _ _ Hc).
  - by rewrite (last_diags_getitem_miss _ _ Hc).
Qed.

(** X14. What a sequence of calls of the hook does to the outside: for
    each call of a saved document, in order, astroid's cache is cleared
    and then pylint is run once, on that document's path; the calls of
    unsaved documents do nothing. *)
Theorem run_calls_trace calls w :
  trace (run_calls calls w) = trace w ++ outside_actions calls.
Proof.
  revert w. induction calls as [|[document is_saved] rest IH]; intros w.
  - simpl. by rewrite app_nil_r.
  - simpl. rewrite IH. unfold pyls_lint, outside_actions. simpl.
    destruct is_saved.
    + rewrite lint_saved_trace. unfold after_run. simpl.
      by rewrite <- app_assoc.
    + by rewrite lint_unsaved_trace.
Qed.

(** X15. The cache only grows, and only by the paths linted: after any
    sequence of calls every path that had an entry still has one, and a
    path that has an entry had one before or is the path of one of the
    calls. *)
Theorem run_calls_entries calls w p :
  (is_Some (last_diags w !! p) ->
   is_Some (last_diags (run_calls calls w) !! p)) ∧
  (is_Some (last_diags (run_calls calls w) !! p) ->
   is_Some (last_diags w !! p) ∨ p ∈ map (fun call => path call.1) calls).
Proof.
  revert w. induction calls as [|[document is_saved] rest IH]; intros w.
  - simpl. split; [done|by left].
  - simpl. destruct (IH (pyls_lint document is_saved w).2) as [IH1 IH2].
    unfold pyls_lint in *.
    destruct (lint_world document is_saved "" w)
      as [[_ Hcache]|(ds & objs & _ & Hcache & _)].
    + rewrite Hcache in *. split; [done|].
      intros Hp. destruct (IH2 Hp) as [?|?]; [by left|right].
      apply elem_of_cons. by right.
    + split.
      * intros Hp. apply IH1. rewrite Hcache.
        destruct (decide (path document = p)) as [->|Hne].
        -- rewrite lookup_insert_eq. eauto.
        -- by rewrite lookup_insert_ne.
      * intros Hp. destruct (IH2 Hp) as [Hp'|?].
        -- rewrite Hcache in Hp'.
           destruct (decide (path document = p)) as [->|Hne].
           ++ right. apply elem_of_cons. by left.
           ++ rewrite lookup_insert_ne in Hp' by done. by left.
        -- right. apply elem_of_cons. by right.
Qed.

End Properties.

(** ** The properties on the concrete inputs *)

Import Examples.

Ltac example_parses :=
  eexists _, _; split_and!;
  [ reflexivity
  | let H := fresh in intros H; vm_compute in H; discriminate H
  | vm_compute; reflexivity
  | reflexivity ].

(** On a document without lines the end character is 0, whatever the
    finding's line. *)
Example lint_saved_empty_document :
  ∃ w',
    lint (RT := runtime "linux" (writes docstring_text))
         empty_py true "" fresh_world = (Ok 0%nat, w') ∧
    sequence_at w' 0%nat
    = Some [ {| source := "pylint";
                range := {| start := {| line := PInt 4;
                                        character := PInt 0 |};
                            end_ := {| line := PInt 4;
                                       character := PInt 0 |} |};
                message := "[missing-docstring] Missing function docstring";
                severity := Information |} ].
Proof. eexists. split; [vm_compute; reflexivity|reflexivity]. Qed.

(** C4. The loop has no [else] for a type outside the five.  On a report
    with a warning followed by a finding of type [info], [lint] returns two
    diagnostics and the second carries the severity left by the first,
    Warning.  On a report with the [info] finding alone, [lint] raises
    [UnboundLocalError] for [severity] and stores nothing. *)
Theorem lint_unrecognized_type_severity :
  (∃ d1 d2 w',
     lint (RT := runtime "linux" (writes warning_info_text))
          foo_py true "" fresh_world = (Ok 0%nat, w') ∧
     sequence_at w' 0%nat = Some [d1; d2] ∧
     severity d1 = Warning ∧
     message d2 = "[locally-disabled] Locally disabling unused-import (W0611)" ∧
     severity d2 = Warning) ∧
  (∃ w',
     lint (RT := runtime "linux" (writes info_text))
          foo_py true "" fresh_world
     = (Raise (UnboundLocalError "severity"), w') ∧
     last_diags w' = ∅).
Proof.
  split.
  - eexists _, _, _. split_and!; [vm_compute; reflexivity|reflexivity..].
  - eexists. split; [vm_compute; reflexivity|reflexivity].
Qed.

(** C9, as stated, fails: in a world whose cache is empty, [lint] with
    [is_saved = False] on [foo.py] leaves a cache that has an entry for the
    path. *)
Lemma lint_unsaved_creates_entry :
  last_diags fresh_world !! path foo_py = None ∧
  last_diags (lint (RT := runtime "linux" (writes docstring_text))
                   foo_py false "" fresh_world).2 !! path foo_py
  = Some 0%nat.
Proof. split; vm_compute; reflexivity. Qed.

Lemma lint_unsaved_returns_cached_witness :
  trace (lint (RT := runtime "linux" (writes docstring_text))
              foo_py false "" fresh_world).2 = [].
Proof.
  exact (proj1 (lint_unsaved_returns_cached
                  (RT := runtime "linux" (writes docstring_text))
                  foo_py "" fresh_world)).
Defined.

Lemma lint_unsaved_cache_frame_witness :
  ∃ lc,
    last_diags (lint (RT := runtime "linux" (writes docstring_text))
                     foo_py false "" fresh_world).2
    = <[path foo_py := lc]> (last_diags fresh_world) ∧
    sequence_at fresh_world lc = None ∧
    heap (lint (RT := runtime "linux" (writes docstring_text))
               foo_py false "" fresh_world).2 = heap fresh_world ++ [[]] ∧
    sequence_at (lint (RT := runtime "linux" (writes docstring_text))
                      foo_py false "" fresh_world).2 lc = Some [] ∧
    cached (lint (RT := runtime "linux" (writes docstring_text))
                 foo_py false "" fresh_world).2 (path foo_py) = Some [].
Proof.
  exact (proj2 (proj2 (proj2 (lint_unsaved_cache_frame
                  (RT := runtime "linux" (writes docstring_text))
                  foo_py "" fresh_world)))).
Defined.

Lemma lint_saved_empty_output_witness :
  run_output (RT := runtime "linux" (Ok [])) foo_py fresh_world = Ok [] ∧
  ∃ l, lint (RT := runtime "linux" (Ok [])) foo_py true "" fresh_world
       = (Ok l, stored (RT := runtime "linux" (Ok [])) foo_py fresh_world
                       [[]; []]) ∧
       sequence_at (stored (RT := runtime "linux" (Ok [])) foo_py fresh_world
                           [[]; []]) l = Some [] ∧
       cached (stored (RT := runtime "linux" (Ok [])) foo_py fresh_world
                      [[]; []]) (path foo_py) = Some [].
Proof.
  split; [reflexivity|].
  apply (lint_saved_empty_output (RT := runtime "linux" (Ok []))).
  reflexivity.
Defined.

Lemma lint_saved_failure_propagates_witness :
  (lint (RT := runtime "linux" (Raise (RunError "crash")))
        foo_py true "" fresh_world).1 = Raise (RunError "crash") ∧
  (lint (RT := runtime "linux" (writes truncated_text))
        foo_py true "" fresh_world).1 = Raise ValueError.
Proof.
  split.
  - apply (lint_saved_failure_propagates
             (RT := runtime "linux" (Raise (RunError "crash")))).
    left. reflexivity.
  - apply (lint_saved_failure_propagates
             (RT := runtime "linux" (writes truncated_text))).
    right. eexists. split_and!; [reflexivity| |reflexivity|reflexivity].
    intros H. vm_compute in H. discriminate H.
Defined.


Lemma lint_saved_twice_witness :
  ∃ ds,
    sequence_at
      (lint (RT := runtime "linux" (writes docstring_text))
            foo_py true "" fresh_world).2 0%nat = Some ds ∧
    sequence_at
      (lint (RT := runtime "linux" (writes docstring_text)) foo_py true ""
         (lint (RT := runtime "linux" (writes docstring_text))
               foo_py true "" fresh_world).2).2 1%nat = Some ds ∧
    sequence_at
      (lint (RT := runtime "linux" (writes docstring_text)) foo_py true ""
         (lint (RT := runtime "linux" (writes docstring_text))
               foo_py true "" fresh_world).2).2 0%nat = Some ds ∧
    cached
      (lint (RT := runtime "linux" (writes docstring_text))
            foo_py true "" fresh_world).2 (path foo_py) = Some ds ∧
    cached
      (lint (RT := runtime "linux" (writes docstring_text)) foo_py true ""
         (lint (RT := runtime "linux" (writes docstring_text))
               foo_py true "" fresh_world).2).2 (path foo_py) = Some ds.
Proof.
  apply (lint_saved_twice (RT := runtime "linux" (writes docstring_text))
           foo_py "" fresh_world).
  reflexivity.
Defined.

(** The specification's example: the finding on line 5 of a saved document
    whose fifth line has 12 characters gives exactly one diagnostic. *)
Lemma lint_saved_diagnostic_witness :
  lint (RT := runtime "win32" (writes docstring_text))
       foo_py true "" fresh_world
  = (Ok 0%nat,
     stored (RT := runtime "win32" (writes docstring_text))
            foo_py fresh_world [[docstring_diagnostic]]) ∧
  (∃ l w', lint (RT := runtime "win32" (writes docstring_text))
                foo_py true "" fresh_world = (Ok l, w')) ∧
  ∃ ds,
    sequence_at (stored (RT := runtime "win32" (writes docstring_text))
                        foo_py fresh_world [[docstring_diagnostic]]) 0%nat
    = Some ds ∧
    length ds = 1%nat ∧
    ∀ i item rf, [docstring_finding] !! i = Some item -> is_finding item rf ->
      ∃ d, ds !! i = Some d ∧
           line (start (range d)) = PInt (rf_line rf - 1) ∧
           character (start (range d)) = PInt (rf_column rf) ∧
           line (end_ (range d)) = line (start (range d)) ∧
           (∃ text,
              list_getitem (lines foo_py) (PInt (rf_line rf - 1)) = Ok text ∧
              character (end_ (range d)) = PInt (Z.of_nat (length text)) ∧
              (1 <= rf_line rf ->
               lines foo_py !! Z.to_nat (rf_line rf - 1) = Some text)) ∧
           message d = ("[" ++ rf_symbol rf ++ "] " ++ rf_message rf)%string ∧
           source d = "pylint".
Proof.
  split; [vm_compute; reflexivity|].
  destruct (lint_saved_diagnostic
              (RT := runtime "win32" (writes docstring_text))
              foo_py "" fresh_world [docstring_finding])
    as [Hreturns Hshape].
  - example_parses.
  - split.
    + apply Hreturns. constructor; [|constructor].
      exists (mkRawFinding 5 0 "convention" "missing-docstring"
                           "Missing function docstring").
      split; [repeat split|]. split; [eexists; reflexivity|].
      right. vm_compute. split; discriminate.
    + apply Hshape. vm_compute; reflexivity.
Defined.




(** A line with a character outside ASCII counts by its code points: the
    warning on line 1 of the one-line document ends at character 6. *)
Example lint_saved_counts_code_points :
  ∃ d w',
    lint (RT := MoreExamples.runtime "linux"
                  (writes MoreExamples.unused_text))
         MoreExamples.sun_py true "" fresh_world = (Ok 0%nat, w') ∧
    sequence_at w' 0%nat = Some [d] ∧
    character (end_ (range d)) = PInt 6.
Proof.
  eexists _, _. split_and!; [vm_compute; reflexivity|reflexivity..].
Qed.

(** ** The further properties on the concrete inputs *)

Lemma lint_saved_returned_object_witness :
  sequence_at fresh_world 1%nat = None ∧
  ∃ lc,
    last_diags (stored (RT := runtime "linux" (Ok [])) foo_py fresh_world
                       [[]; []]) !! path foo_py = Some lc ∧
    sequence_at fresh_world lc = None ∧
    lc ≠ 1%nat ∧
    sequence_at (stored (RT := runtime "linux" (Ok [])) foo_py fresh_world
                        [[]; []]) 1%nat = Some [] ∧
    sequence_at (stored (RT := runtime "linux" (Ok [])) foo_py fresh_world
                        [[]; []]) lc = Some [].
Proof.
  apply (lint_saved_returned_object (RT := runtime "linux" (Ok []))
           foo_py "" fresh_world).
  reflexivity.
Defined.

Lemma lint_saved_raise_stores_nothing_witness :
  (lint (RT := runtime "linux" (writes far_text))
        foo_py true "" fresh_world).1 = Raise IndexError ∧
  (lint (RT := runtime "linux" (writes far_text))
        foo_py true "" fresh_world).2
  = after_run (RT := runtime "linux" (writes far_text)) foo_py fresh_world.
Proof.
  split; [vm_compute; reflexivity|].
  apply (lint_saved_raise_stores_nothing
           (RT := runtime "linux" (writes far_text))
           foo_py "" fresh_world IndexError).
  vm_compute; reflexivity.
Defined.

Lemma pyls_lint_saved_then_unsaved_witness :
  ∃ lc ds,
    pyls_lint (RT := runtime "linux" (writes docstring_text))
      {| path := path foo_py; lines := [] |} false
      (stored (RT := runtime "linux" (writes docstring_text))
              foo_py fresh_world [[docstring_diagnostic]])
    = (Ok lc, stored (RT := runtime "linux" (writes docstring_text))
                     foo_py fresh_world [[docstring_diagnostic]]) ∧
    sequence_at (stored (RT := runtime "linux" (writes docstring_text))
                        foo_py fresh_world [[docstring_diagnostic]]) lc
    = Some ds ∧
    sequence_at (stored (RT := runtime "linux" (writes docstring_text))
                        foo_py fresh_world [[docstring_diagnostic]]) 0%nat
    = Some ds.
Proof.
  apply (pyls_lint_saved_then_unsaved
           (RT := runtime "linux" (writes docstring_text))
           foo_py {| path := path foo_py; lines := [] |} fresh_world).
  - vm_compute; reflexivity.
  - reflexivity.
Defined.

Lemma lint_saved_ignores_cache_witness :
  ∃ ds,
    sequence_at
      (lint (RT := runtime "linux" (writes docstring_text))
            foo_py true "" fresh_world).2 0%nat = Some ds ∧
    sequence_at
      (lint (RT := runtime "linux" (writes docstring_text))
            foo_py true "--disable=all"
            {| heap := [[docstring_diagnostic; docstring_diagnostic]];
               last_diags := {[ path foo_py := 0%nat ]};
               trace := [] |}).2 1%nat = Some ds.
Proof.
  apply (lint_saved_ignores_cache
           (RT := runtime "linux" (writes docstring_text))
           foo_py "" "--disable=all" fresh_world
           {| heap := [[docstring_diagnostic; docstring_diagnostic]];
              last_diags := {[ path foo_py := 0%nat ]};
              trace := [] |}).
  reflexivity.
Defined.

Lemma lint_saved_path_unchanged_witness :
  trace (lint (RT := MoreExamples.runtime "win32" (Ok []))
              MoreExamples.bar_py true "" fresh_world).2
  = [AstroidCacheClear; PylintRun ["/src/bar.py"]].
Proof.
  apply (lint_saved_path_unchanged
           (RT := MoreExamples.runtime "win32" (Ok []))
           MoreExamples.bar_py "" fresh_world).
  right. intros i.
  do 11 (destruct i as [|i]; [discriminate|]). discriminate.
Defined.

Lemma lint_saved_report_not_a_list_witness :
  lint (RT := MoreExamples.runtime "linux" (writes MoreExamples.null_text))
       foo_py true "" fresh_world
  = (Raise TypeError,
     after_run (RT := MoreExamples.runtime "linux"
                        (writes MoreExamples.null_text))
               foo_py fresh_world) ∧
  lint (RT := MoreExamples.runtime "linux"
                (writes MoreExamples.empty_object_text))
       foo_py true "" fresh_world
  = (Ok 0%nat,
     stored (RT := MoreExamples.runtime "linux"
                     (writes MoreExamples.empty_object_text))
            foo_py fresh_world [[]]).
Proof.
  split.
  - apply (lint_saved_report_not_a_list
             (RT := MoreExamples.runtime "linux"
                      (writes MoreExamples.null_text))
             foo_py "" fresh_world
             (list_byte_of_string MoreExamples.null_text) PNone).
    + reflexivity.
    + intros H. vm_compute in H. discriminate H.
    + vm_compute; reflexivity.
    + discriminate.
  - apply (lint_saved_report_not_a_list
             (RT := MoreExamples.runtime "linux"
                      (writes MoreExamples.empty_object_text))
             foo_py "" fresh_world
             (list_byte_of_string MoreExamples.empty_object_text)
             (PDict [])).
    + reflexivity.
    + intros H. vm_compute in H. discriminate H.
    + vm_compute; reflexivity.
    + discriminate.
Defined.

Lemma lint_saved_malformed_item_witness :
  ∃ e,
    lint (RT := MoreExamples.runtime "linux" (writes MoreExamples.bare_text))
         foo_py true "" fresh_world
    = (Raise e,
       after_run (RT := MoreExamples.runtime "linux"
                          (writes MoreExamples.bare_text))
                 foo_py fresh_world).
Proof.
  apply (lint_saved_malformed_item
           (RT := MoreExamples.runtime "linux"
                    (writes MoreExamples.bare_text))
           foo_py "" fresh_world [MoreExamples.bare_item]
           MoreExamples.bare_item "column" (KeyError "column")).
  - example_parses.
  - apply elem_of_cons. left. reflexivity.
  - apply elem_of_cons. right. apply elem_of_cons. left. reflexivity.
  - reflexivity.
Defined.

Lemma lint_saved_unrecognized_stale_witness :
  ∃ ds j d d',
    sequence_at
      (lint (RT := runtime "linux" (writes warning_info_text))
            foo_py true "" fresh_world).2 0%nat = Some ds ∧
    1%nat = S j ∧
    ds !! j = Some d' ∧ ds !! 1%nat = Some d ∧
    severity d = severity d'.
Proof.
  apply (lint_saved_unrecognized_stale
           (RT := runtime "linux" (writes warning_info_text))
           foo_py "" fresh_world [unused_finding; disabled_finding]
           0%nat _ 1%nat disabled_finding (PStr "info")).
  - example_parses.
  - vm_compute; reflexivity.
  - reflexivity.
  - reflexivity.
  - reflexivity.
Defined.

Lemma lint_saved_unrecognized_first_witness :
  lint (RT := runtime "linux" (writes info_text)) foo_py true "" fresh_world
  = (Raise (UnboundLocalError "severity"),
     after_run (RT := runtime "linux" (writes info_text))
               foo_py fresh_world).
Proof.
  apply (proj2 (lint_saved_unrecognized_first
                  (RT := runtime "linux" (writes info_text))
                  foo_py "" fresh_world disabled_finding [] (PStr "info")
                  ltac:(example_parses) eq_refl eq_refl)
           1 (PInt 0) (PStr "locally-disabled")
           (PStr "Locally disabling unused-import (W0611)")).
  - reflexivity.
  - reflexivity.
  - reflexivity.
  - reflexivity.
  - right. vm_compute. split; [reflexivity|discriminate].
Defined.

Lemma lint_saved_returns_iff_witness :
  ∃ l w',
    lint (RT := MoreExamples.runtime "linux" (writes MoreExamples.back_text))
         foo_py true "" fresh_world = (Ok l, w').
Proof.
  apply (lint_saved_returns_iff
           (RT := MoreExamples.runtime "linux"
                    (writes MoreExamples.back_text))
           foo_py "" fresh_world [MoreExamples.back_finding]).
  - example_parses.
  - constructor; [|constructor].
    exists (mkRawFinding (-5) 0 "error" "syntax-error" "invalid syntax").
    split; [repeat split|]. eexists. reflexivity.
  - discriminate.
  - constructor; [|constructor].
    intros n [= <-]. vm_compute. split; [reflexivity|discriminate].
Defined.

Lemma run_calls_cache_sound_witness :
  cache_sound fresh_world ∧
  cache_sound
    (run_calls (RT := runtime "linux" (writes docstring_text))
               [(foo_py, true); (foo_py, false); (empty_py, false)]
               fresh_world).
Proof.
  assert (cache_sound fresh_world) as Hfresh.
  { split.
    - intros p l H. vm_compute in H. discriminate H.
    - intros l ds d H. unfold sequence_at in H. simpl in H.
      rewrite lookup_nil in H. discriminate H. }
  split; [exact Hfresh|].
  apply (run_calls_cache_sound
           (RT := runtime "linux" (writes docstring_text))).
  exact Hfresh.
Defined.

